(** * fastify-playground: the authentication gate and the error normaliser

    A shallow embedding of the two plugins of the application that carry a
    contract: [plugins/jwt.ts] (secret selection at start-up and the
    [authenticate] decorator) and [plugins/error-handler.ts] (the global
    error handler installed with [setErrorHandler]).

    JavaScript values are a small inductive type, [process.env] is a finite
    map from names to strings, the reply object is threaded explicitly, a
    call that throws returns the thrown value on the left of a sum, and the
    logger is a list of entries in emission order. *)

From Stdlib Require Import ZArith Lia.
From stdpp Require Import base option list gmap strings pretty.

Set Warnings "-register-all".

Local Open Scope string_scope.
Local Open Scope Z_scope.

(** ** JavaScript values *)

Module Js.

(** The values that flow through the two plugins.  An object keeps its
    properties in insertion order, as an object literal does. *)
Inductive val : Type :=
| Undefined
| Null
| Bool (b : bool)
| Num (n : Z)
| Str (s : string)
| Arr (items : list val)
| Obj (props : list (string * val)).

(** [o.k]: the first property named [k]; [undefined] when there is none or
    when the receiver is not an object. *)
Fixpoint lookup_prop (k : string) (props : list (string * val)) : val :=
  match props with
  | [] => Undefined
  | (k', v) :: rest => if String.eqb k k' then v else lookup_prop k rest
  end.

Definition get (k : string) (o : val) : val :=
  match o with
  | Obj props => lookup_prop k props
  | _ => Undefined
  end.

(** [Object.keys(o)]. *)
Definition keys (o : val) : list string :=
  match o with
  | Obj props => map fst props
  | _ => []
  end.

(** [k in o] for an own property. *)
Definition has (k : string) (o : val) : bool :=
  existsb (String.eqb k) (keys o).

(** [o.k !== undefined], which is what survives JSON serialisation. *)
Definition defined (k : string) (o : val) : bool :=
  match get k o with
  | Undefined => false
  | _ => true
  end.

(** A possibly absent string read from an object or from the environment. *)
Definition of_string (s : option string) : val :=
  match s with
  | Some x => Str x
  | None => Undefined
  end.

(** ToBoolean on a possibly absent string: [undefined] and the empty
    string are falsy. *)
Definition truthy (s : option string) : bool :=
  match s with
  | Some x => negb (String.eqb x "")
  | None => false
  end.

(** [a || d] where [a] is a possibly absent string and [d] a string. *)
Definition or_else (a : option string) (d : string) : string :=
  match a with
  | Some x => if truthy a then x else d
  | None => d
  end.

(** [a !== b] where [a] is a possibly absent string and [b] a string. *)
Definition strict_neq (a : option string) (b : string) : bool :=
  match a with
  | Some x => negb (String.eqb x b)
  | None => true
  end.

(** [...(c && { k: v })] inside an object literal: the property is added
    when [c] holds, and spreading [false] adds nothing. *)
Definition spread_when (c : bool) (k : string) (v : val)
  : list (string * val) :=
  if c then [(k, v)] else [].

End Js.

(** ** The process environment *)

(** [process.env]: a finite map from variable names to strings. *)
Abbreviation Env := (gmap string string).

Definition NODE_ENV (env : Env) : option string := env !! "NODE_ENV".
Definition JWT_SECRET (env : Env) : option string := env !! "JWT_SECRET".

(** ** Logging *)

Module Log.

Inductive level : Type := error | warn.

(** One call of [log.error(...)] or [log.warn(...)]: the severity and the
    message string. *)
Record entry : Type := { severity : level; msg : string }.

End Log.

(** ** The reply object *)

Module Reply.

(** What the plugins touch of a Fastify reply: whether a payload was sent,
    the status code, and the payload. *)
Record t : Type := { sent : bool; statusCode : Z; payload : Js.val }.

(** A reply nobody has written to: status 200, nothing sent. *)
Definition fresh : t :=
  {| sent := false; statusCode := 200; payload := Js.Undefined |}.

(** What [reply.code] throws for a code it refuses. *)
Inductive thrown : Type := FST_ERR_BAD_STATUS_CODE (given : Z).

(** The codes a reply accepts: 100 to 599. *)
Definition accepts (n : Z) : bool := (100 <=? n) && (n <=? 599).

(** [reply.code(n)], also spelled [reply.status(n)]: it sets the status, and
    throws for a code outside 100..599, leaving the reply as it was. *)
Definition code (n : Z) (r : t) : thrown + t :=
  if accepts n
  then inr {| sent := sent r; statusCode := n; payload := payload r |}
  else inl (FST_ERR_BAD_STATUS_CODE n).

Definition status : Z -> t -> thrown + t := code.

(** The next call of a chain [reply.code(n).f(...)]: it happens only when
    the call before it returned. *)
Definition chain (f : t -> t) (r : thrown + t) : thrown + t :=
  match r with
  | inr r' => inr (f r')
  | inl err => inl err
  end.

(** [reply.send(v)]: the first payload wins. *)
Definition send (v : Js.val) (r : t) : t :=
  if sent r then r
  else {| sent := true; statusCode := statusCode r; payload := v |}.

(** Modelled from the spec: what the framework answers when the
    application's error handler itself throws.  Its own handler takes over:
    status 500 and the thrown error serialised as [{ statusCode, code,
    error, message }]. *)
Definition fallback (err : thrown) : t :=
  match err with
  | FST_ERR_BAD_STATUS_CODE given =>
      {| sent := true;
         statusCode := 500;
         payload := Js.Obj
           [ ("statusCode", Js.Num 500);
             ("code", Js.Str "FST_ERR_BAD_STATUS_CODE");
             ("error", Js.Str "Internal Server Error");
             ("message",
              Js.Str ("Called reply with an invalid status code: "
                      +:+ pretty given)) ] |}
  end.

End Reply.

(** ** The error normaliser ([plugins/error-handler.ts]) *)

Module FastifyError.

(** Modelled from the spec: the [FastifyError] type is declared by the
    framework, not by the application.  The fields are those of the
    Failure record of the specification: a message, an optional machine
    code, an optional numeric status code, an optional list of
    field-level violations, and the stack trace. *)
Record t : Type := {
  message : string;
  code : option string;
  statusCode : option Z;
  validation : option (list Js.val);
  stack : string
}.

End FastifyError.

Module ErrorHandler.

Import FastifyError.

(** [error.statusCode ?? 500]. *)
Definition resolveStatus (e : FastifyError.t) : Z :=
  default 500 (statusCode e).

(** One call of [request.log.error(error, msg)] or
    [request.log.warn(error, msg)]: the error object given first, which the
    logger merges into the entry, and the severity and message. *)
Record LogCall : Type := { object : FastifyError.t; entry : Log.entry }.

(** The logging step: error severity from 500 up, warning severity from
    400 up, nothing below. *)
Definition logFor (e : FastifyError.t) : list LogCall :=
  let statusCode := resolveStatus e in
  if 500 <=? statusCode then
    [ {| object := e;
         entry := {| Log.severity := Log.error;
                     Log.msg := "Server error: " +:+ message e |} |} ]
  else if 400 <=? statusCode then
    [ {| object := e;
         entry := {| Log.severity := Log.warn;
                     Log.msg := "Client error: " +:+ message e |} |} ]
  else [].

(** [...(process.env.NODE_ENV !== "production" && { stack: error.stack })]. *)
Definition stackProps (env : Env) (e : FastifyError.t)
  : list (string * Js.val) :=
  Js.spread_when (Js.strict_neq (NODE_ENV env) "production")
    "stack" (Js.Str (stack e)).

(** The payload of the validation branch. *)
Definition validationBody (env : Env) (e : FastifyError.t)
    (violations : list Js.val) : Js.val :=
  Js.Obj [ ("error", Js.Obj (
    [ ("message", Js.Str "Validation failed");
      ("code", Js.Str (Js.or_else (code e) "VALIDATION_ERROR"));
      ("statusCode", Js.Num 422);
      ("validation", Js.Arr violations) ]
    ++ stackProps env e)) ].

(** The payload of the general branch. *)
Definition errorBody (env : Env) (e : FastifyError.t) : Js.val :=
  Js.Obj [ ("error", Js.Obj (
    [ ("message", Js.Str (message e));
      ("code", Js.of_string (code e));
      ("statusCode", Js.Num (resolveStatus e)) ]
    ++ stackProps env e)) ].

(** The handler given to [setErrorHandler]: the log calls it makes and
    the reply it leaves behind, or what it throws.  An array, even an empty
    one, is truthy, so the validation branch is taken exactly when
    [validation] is there. *)
Definition errorHandler (env : Env) (e : FastifyError.t) (reply : Reply.t)
  : list LogCall * (Reply.thrown + Reply.t) :=
  let logs := logFor e in
  match validation e with
  | Some violations =>
      (logs, Reply.chain (Reply.send (validationBody env e violations))
               (Reply.status 422 reply))
  | None =>
      (logs, Reply.chain (Reply.send (errorBody env e))
               (Reply.status (resolveStatus e) reply))
  end.

(** The response a request sees when its failure reaches the handler: the
    handler's reply, or the framework's when the handler throws. *)
Definition respond (env : Env) (e : FastifyError.t) : Reply.t :=
  match snd (errorHandler env e Reply.fresh) with
  | inr reply => reply
  | inl err => Reply.fallback err
  end.

(** The [error] object of the response body. *)
Definition errorObject (env : Env) (e : FastifyError.t) : Js.val :=
  Js.get "error" (Reply.payload (respond env e)).

(** The failures the handler answers itself: those with a validation list,
    answered with 422, and those whose status code, 500 when there is none,
    is one the reply accepts. *)
Definition answers (e : FastifyError.t) : Prop :=
  is_Some (validation e) \/ 100 <= resolveStatus e <= 599.

(** The severity and message of the log calls the handler makes for a
    failure. *)
Definition logged (env : Env) (e : FastifyError.t) : list Log.entry :=
  map entry (fst (errorHandler env e Reply.fresh)).

End ErrorHandler.

(** ** The JWT plugin ([plugins/jwt.ts]) *)

Module JwtPlugin.

(** The secret used when [JWT_SECRET] gives none. *)
Definition developmentSecret : string :=
  "development-secret-change-in-production".

(** The options handed to the JWT library at registration. *)
Record SignOptions : Type := { algorithm : string; expiresIn : string }.
Record Options : Type := { secret : string; sign : SignOptions }.

(** [process.env.JWT_SECRET || "development-secret-change-in-production"]. *)
Definition chooseSecret (env : Env) : string :=
  Js.or_else (JWT_SECRET env) developmentSecret.

(** [!process.env.JWT_SECRET && process.env.NODE_ENV !== "test"]. *)
Definition shouldWarn (env : Env) : bool :=
  negb (Js.truthy (JWT_SECRET env)) && Js.strict_neq (NODE_ENV env) "test".

Definition secretWarning : Log.entry :=
  {| Log.severity := Log.warn;
     Log.msg := "JWT_SECRET not set. Using development secret. Set JWT_SECRET in production!" |}.

(** The warnings logged while the plugin starts. *)
Definition startupLog (env : Env) : list Log.entry :=
  if shouldWarn env then [secretWarning] else [].

Definition registration (env : Env) : Options :=
  {| secret := chooseSecret env;
     sign := {| algorithm := "HS256"; expiresIn := "1h" |} |}.

(** A request, as far as the gate is concerned: its headers and the claim
    set attached to it ([request.user]), [undefined] until a token has been
    verified. *)
Record Request : Type := { headers : gmap string string; user : Js.val }.

(** Why [request.jwtVerify()] threw.  The gate catches every thrown value
    and looks at none of them. *)
Inductive Rejection : Type :=
| HeaderMissing
| HeaderMalformed
| SignatureInvalid
| TokenExpired
| TokenInvalid
| Thrown (value : Js.val).

(** [request.jwtVerify()] as the JWT library provides it once registered
    with some options: it either throws or resolves with the claim set
    attached to the request. *)
Definition Verifier : Type := Options -> Request -> Rejection + Request.

(** The fixed body of the gate's own response. *)
Definition unauthorizedBody : Js.val :=
  Js.Obj [ ("error", Js.Obj
    [ ("message", Js.Str "Unauthorized");
      ("code", Js.Str "UNAUTHORIZED");
      ("statusCode", Js.Num 401) ]) ].

(** The [authenticate] decorator: [try { await request.jwtVerify() }
    catch (_error) { reply.code(401).send(...) }].  The reply accepts 401,
    so [reply.code(401)] always returns; were it to throw, the gate would
    have written nothing. *)
Definition authenticate (jwtVerify : Request -> Rejection + Request)
    (request : Request) (reply : Reply.t) : Request * Reply.t :=
  match jwtVerify request with
  | inr verified => (verified, reply)
  | inl _error =>
      match Reply.chain (Reply.send unauthorizedBody) (Reply.code 401 reply) with
      | inr answered => (request, answered)
      | inl _ => (request, reply)
      end
  end.

(** What registering the plugin under an environment leaves behind: the
    start-up log, the options given to the JWT library, and the decorator. *)
Record Instance : Type := {
  log : list Log.entry;
  options : Options;
  decorator : Request -> Reply.t -> Request * Reply.t
}.

Definition plugin (fastifyJwt : Verifier) (env : Env) : Instance :=
  {| log := startupLog env;
     options := registration env;
     decorator := authenticate (fastifyJwt (registration env)) |}.

(** What a request to a protected route ends in: the reply, the state the
    handler may have changed, and how many times the handler ran. *)
Record Outcome (World : Type) : Type := {
  reply : Reply.t;
  world : World;
  handlerCalls : nat
}.

Arguments reply {World} _.
Arguments world {World} _.
Arguments handlerCalls {World} _.

(** Modelled from the spec: the request lifecycle is the framework's.  A
    route declared with [onRequest: [fastify.authenticate]] runs the gate
    first; the handler runs only when the gate has not answered, and its
    result is then sent with the reply's status. *)
Definition protectedRoute {World : Type} (fastifyJwt : Verifier) (env : Env)
    (handler : Request -> World -> World * Js.val)
    (request : Request) (w : World) : Outcome World :=
  let '(request', r) := decorator (plugin fastifyJwt env) request Reply.fresh in
  if Reply.sent r then
    {| reply := r; world := w; handlerCalls := 0 |}
  else
    let '(w', result) := handler request' w in
    {| reply := Reply.send result r; world := w'; handlerCalls := 1 |}.

(** The [error] object of a reply's payload. *)
Definition errorObject (r : Reply.t) : Js.val :=
  Js.get "error" (Reply.payload r).

End JwtPlugin.

(** ** Fixtures for the examples *)

Module Fixture.

Import JwtPlugin.

(** A stand-in for the JWT library: the header must be [Bearer <secret>]
    for the configured secret, and the claim set is then [{ userId: 123 }]. *)
Definition stubJwt : Verifier := fun opts request =>
  match headers request !! "authorization" with
  | None => inl HeaderMissing
  | Some h =>
      if String.eqb h ("Bearer " +:+ secret opts) then
        inr {| headers := headers request;
               user := Js.Obj [("userId", Js.Num 123)] |}
      else if String.prefix "Bearer " h then inl TokenInvalid
      else inl HeaderMalformed
  end.

(** A handler with a side effect: it counts its calls and answers with the
    claim set. *)
Definition countingHandler (request : Request) (calls : nat)
  : nat * Js.val :=
  (S calls, Js.Obj [("user", user request)]).

Definition anonymous : Request := {| headers := ∅; user := Js.Undefined |}.

Definition withAuthorization (h : string) : Request :=
  {| headers := {[ "authorization" := h ]}; user := Js.Undefined |}.

Definition development : Env := ∅.
Definition production : Env := {[ "NODE_ENV" := "production" ]}.
Definition testing : Env :=
  {[ "NODE_ENV" := "test"; "JWT_SECRET" := "test-secret-key" ]}.

(** [new Error(msg)], optionally with a status code. *)
Definition plainError (m : string) (status : option Z) : FastifyError.t :=
  {| FastifyError.message := m;
     FastifyError.code := None;
     FastifyError.statusCode := status;
     FastifyError.validation := None;
     FastifyError.stack := "Error: " +:+ m +:+ " at handler" |}.

(** A schema validation failure as the framework raises it. *)
Definition validationError (c : option string) (status : option Z)
  : FastifyError.t :=
  {| FastifyError.message := "querystring must have required property 'name'";
     FastifyError.code := c;
     FastifyError.statusCode := status;
     FastifyError.validation :=
       Some [Js.Obj [("keyword", Js.Str "required")]];
     FastifyError.stack := "Error: querystring must have required property" |}.

End Fixture.

(** ** Response headers *)

Module Header.

(** Lower case of an ASCII letter; header names are ASCII. *)
Definition lower_ascii (c : Ascii.ascii) : Ascii.ascii :=
  let n := Ascii.nat_of_ascii c in
  if ((65 <=? n) && (n <=? 90))%nat then Ascii.ascii_of_nat (n + 32)%nat
  else c.

Fixpoint lowercase (s : string) : string :=
  match s with
  | EmptyString => EmptyString
  | String c rest => String (lower_ascii c) (lowercase rest)
  end.

(** The headers of a reply.  The framework keeps them under lower-case
    names, whatever the case they are set or read with. *)
Record t : Type := { fields : gmap string string }.

Definition empty : t := {| fields := ∅ |}.

(** [reply.header(name, value)]: a header of that name, in any case, is
    overwritten. *)
Definition set (name value : string) (h : t) : t :=
  {| fields := <[ lowercase name := value ]> (fields h) |}.

(** [reply.getHeader(name)]. *)
Definition get (name : string) (h : t) : option string :=
  fields h !! lowercase name.

End Header.

#[global] Instance header_lookup : Lookup string string Header.t :=
  Header.get.

(** ** Request tracking ([plugins/request-logging.ts]) *)

Module RequestLogging.

(** A request, as far as the [onRequest] hook is concerned.  Node gives the
    request headers with lower-case names.  [logBindings] are the fields
    the request's logger adds to every entry. *)
Record Request : Type := {
  headers : gmap string string;
  id : string;
  method : string;
  url : string;
  ip : string;
  logBindings : list (string * Js.val)
}.

(** One call of [request.log.info(fields, msg)]. *)
Record InfoEntry : Type := {
  bindings : list (string * Js.val);
  fields : Js.val;
  msg : string
}.

(** What the hook reads and writes: the request, the headers of the
    response, and the log. *)
Record State : Type := {
  request : Request;
  responseHeaders : Header.t;
  log : list InfoEntry
}.

(** [request.headers["x-request-id"] || randomUUID()], where [uuid] is what
    [randomUUID()] returns when it is called. *)
Definition requestIdFor (uuid : string) (r : Request) : string :=
  Js.or_else (headers r !! "x-request-id") uuid.

(** The [onRequest] hook: it stores the request id on the request, sets the
    [X-Request-Id] response header, binds the id to the request's logger
    and logs the incoming request. *)
Definition onRequest (uuid : string) (s : State) : State :=
  let r := request s in
  let requestId := requestIdFor uuid r in
  let childBindings :=
    (logBindings r ++ [("requestId", Js.Str requestId)])%list in
  {| request :=
       {| headers := headers r; id := requestId; method := method r;
          url := url r; ip := ip r; logBindings := childBindings |};
     responseHeaders := Header.set "X-Request-Id" requestId (responseHeaders s);
     log := (log s ++
       [ {| bindings := childBindings;
            fields := Js.Obj
              [ ("method", Js.Str (method r));
                ("url", Js.Str (url r));
                ("userAgent", Js.of_string (headers r !! "user-agent"));
                ("ip", Js.Str (ip r)) ];
            msg := "Incoming request" |} ])%list |}.

End RequestLogging.

(** ** Shutdown ([plugins/lifecycle.ts]) *)

Module Lifecycle.

Inductive level : Type := info | error | fatal.

Record entry : Type := { severity : level; msg : string }.

(** What [await fastify.close()] does: the entries logged while the server
    closes (the [onClose] hook logs one), and whether it resolved. *)
Record CloseOutcome : Type := { during : list entry; resolved : bool }.

(** The [onClose] hook. *)
Definition onClose : list entry :=
  [ {| severity := info; msg := "Server closing, cleaning up resources..." |} ].

(** [closeGracefully(signal)]: the entries logged and the exit code. *)
Definition closeGracefully (close : CloseOutcome) (signal : string)
  : list entry * Z :=
  let received :=
    {| severity := info;
       msg := "Received " +:+ signal +:+ ", shutting down gracefully" |} in
  if resolved close then
    ((received :: during close
       ++ [ {| severity := info; msg := "Server closed successfully" |} ])%list,
     0)
  else
    ((received :: during close
       ++ [ {| severity := error;
               msg := "Error during graceful shutdown" |} ])%list,
     1).

(** The process events the plugin listens to. *)
Inductive ProcessEvent : Type :=
| SIGTERM
| SIGINT
| uncaughtException
| unhandledRejection.

(** The listeners registered with [process.on]. *)
Definition onEvent (close : CloseOutcome) (ev : ProcessEvent)
  : list entry * Z :=
  match ev with
  | SIGTERM => closeGracefully close "SIGTERM"
  | SIGINT => closeGracefully close "SIGINT"
  | uncaughtException =>
      let '(entries, exitCode) := closeGracefully close "uncaughtException" in
      ({| severity := fatal; msg := "Uncaught exception" |} :: entries,
       exitCode)
  | unhandledRejection =>
      let '(entries, exitCode) := closeGracefully close "unhandledRejection" in
      ({| severity := fatal; msg := "Unhandled promise rejection" |} :: entries,
       exitCode)
  end.

End Lifecycle.

(** ** Fixtures for request tracking and shutdown *)

Module TrackingFixture.

Import RequestLogging.

Definition requestWith (hs : gmap string string) : State :=
  {| request :=
       {| headers := hs; id := "req-1"; method := "GET"; url := "/test";
          ip := "127.0.0.1"; logBindings := [] |};
     responseHeaders :=
       Header.set "x-request-id" "old-id"
         (Header.set "Content-Type" "application/json" Header.empty);
     log := [] |}.

Definition sampleUuid : string := "3f0c2a52-7a0e-4c2b-9d57-6f0d8a1b2c3d".

Definition cleanClose : Lifecycle.CloseOutcome :=
  {| Lifecycle.during := Lifecycle.onClose; Lifecycle.resolved := true |}.

Definition failedClose : Lifecycle.CloseOutcome :=
  {| Lifecycle.during := Lifecycle.onClose; Lifecycle.resolved := false |}.

End TrackingFixture.

(** ** The repository's own tests, replayed on the model *)

Section ReplayedTests.

Import Fixture.

(** error-handler.test.ts: a plain error gives 500 and the message. *)
Example test_server_error :
  let r := ErrorHandler.respond testing (plainError "Internal server error" None) in
  Reply.statusCode r = 500
  /\ Js.get "message" (Js.get "error" (Reply.payload r))
     = Js.Str "Internal server error"
  /\ Js.get "statusCode" (Js.get "error" (Reply.payload r)) = Js.Num 500.
Proof. vm_compute. repeat split. Qed.

(** error-handler.test.ts: a schema failure gives 422 "Validation failed". *)
Example test_validation_error :
  let r := ErrorHandler.respond testing
             (validationError (Some "FST_ERR_VALIDATION") (Some 400)) in
  Reply.statusCode r = 422
  /\ Js.get "message" (Js.get "error" (Reply.payload r))
     = Js.Str "Validation failed"
  /\ Js.defined "validation" (Js.get "error" (Reply.payload r)) = true.
Proof. vm_compute. repeat split. Qed.

(** error-handler.test.ts: stack in development, none in production. *)
Example test_stack_by_mode :
  Js.defined "stack"
    (ErrorHandler.errorObject development (plainError "Development error" None))
  = true
  /\ Js.defined "stack"
       (ErrorHandler.errorObject production (plainError "Production error" None))
     = false.
Proof. vm_compute. split; reflexivity. Qed.

(** jwt.test.ts: a valid token reaches the handler, which sees the claims. *)
Example test_valid_token :
  let o := JwtPlugin.protectedRoute stubJwt testing countingHandler
             (withAuthorization "Bearer test-secret-key") 0%nat in
  Reply.statusCode (JwtPlugin.reply o) = 200
  /\ Js.get "userId" (Js.get "user" (Reply.payload (JwtPlugin.reply o)))
     = Js.Num 123
  /\ JwtPlugin.handlerCalls o = 1%nat.
Proof. vm_compute. repeat split. Qed.

(** jwt.test.ts: no token and a bad token both give 401 UNAUTHORIZED. *)
Example test_no_token :
  let o := JwtPlugin.protectedRoute stubJwt testing countingHandler
             anonymous 0%nat in
  Reply.statusCode (JwtPlugin.reply o) = 401
  /\ Js.get "code" (JwtPlugin.errorObject (JwtPlugin.reply o))
     = Js.Str "UNAUTHORIZED".
Proof. vm_compute. split; reflexivity. Qed.

Example test_invalid_token :
  let o := JwtPlugin.protectedRoute stubJwt testing countingHandler
             (withAuthorization "Bearer invalid-token") 0%nat in
  Reply.statusCode (JwtPlugin.reply o) = 401
  /\ Js.get "code" (JwtPlugin.errorObject (JwtPlugin.reply o))
     = Js.Str "UNAUTHORIZED".
Proof. vm_compute. split; reflexivity. Qed.

(** jwt.test.ts: the warning is logged when neither variable is set. *)
Example test_warns_in_development :
  JwtPlugin.log (JwtPlugin.plugin stubJwt development)
  = [JwtPlugin.secretWarning].
Proof. vm_compute. reflexivity. Qed.

End ReplayedTests.

(** ** Properties of the error normaliser *)

Section ErrorHandlerFacts.

Import FastifyError ErrorHandler.

Variable env : Env.
Variable e : FastifyError.t.

(** The reply accepts exactly the codes from 100 to 599. *)
Lemma accepts_spec (n : Z) : Reply.accepts n = true <-> 100 <= n <= 599.
Proof.
  unfold Reply.accepts. rewrite andb_true_iff, !Z.leb_le. reflexivity.
Qed.

(** The reply of the validation branch. *)
Lemma respond_validation (violations : list Js.val) :
  validation e = Some violations ->
  respond env e
  = {| Reply.sent := true; Reply.statusCode := 422;
       Reply.payload := validationBody env e violations |}.
Proof. intros Hv. unfold respond, errorHandler. rewrite Hv. reflexivity. Qed.

(** The reply of the general branch, for a status the reply accepts. *)
Lemma respond_plain :
  validation e = None ->
  100 <= resolveStatus e <= 599 ->
  respond env e
  = {| Reply.sent := true; Reply.statusCode := resolveStatus e;
       Reply.payload := errorBody env e |}.
Proof.
  intros Hv Hrange. apply accepts_spec in Hrange.
  unfold respond, errorHandler, Reply.status, Reply.code.
  rewrite Hv, Hrange. reflexivity.
Qed.

(** For a status the reply refuses the handler throws and the framework
    answers. *)
Lemma respond_refused :
  validation e = None ->
  ~ (100 <= resolveStatus e <= 599) ->
  respond env e
  = Reply.fallback (Reply.FST_ERR_BAD_STATUS_CODE (resolveStatus e)).
Proof.
  intros Hv Hrange. rewrite <- accepts_spec in Hrange.
  apply not_true_is_false in Hrange.
  unfold respond, errorHandler, Reply.status, Reply.code.
  rewrite Hv, Hrange. reflexivity.
Qed.

(** The handler returns, rather than throws, exactly for the failures it
    answers. *)
Lemma answers_iff_returns (reply : Reply.t) :
  answers e <-> exists r, snd (errorHandler env e reply) = inr r.
Proof.
  unfold answers, errorHandler, Reply.status, Reply.code.
  destruct (validation e) as [violations|]; cbn.
  - split; eauto.
  - destruct (Reply.accepts (resolveStatus e)) eqn:Hacc; cbn.
    + apply accepts_spec in Hacc. split; eauto.
    + split.
      * intros [[x Hx] | Hrange]; [discriminate |].
        apply accepts_spec in Hrange. congruence.
      * intros [r Hr]. discriminate.
Qed.

(** Every failure is answered, by the handler or by the framework. *)
Lemma respond_sent : Reply.sent (respond env e) = true.
Proof.
  unfold respond, errorHandler, Reply.status, Reply.code.
  destruct (validation e); cbn; [reflexivity |].
  destruct (Reply.accepts (resolveStatus e)); reflexivity.
Qed.

(** The log does not look at the validation list. *)
Lemma logged_eq : logged env e = map entry (logFor e).
Proof. unfold logged, errorHandler. destruct (validation e); reflexivity. Qed.

(** In the handler's own answers the stack property is governed by the
    mode alone, in both branches. *)
Lemma has_stack_eq :
  answers e ->
  Js.has "stack" (errorObject env e)
  = Js.strict_neq (NODE_ENV env) "production".
Proof.
  intros Hans. unfold errorObject.
  destruct (validation e) as [violations|] eqn:Hv.
  - rewrite (respond_validation violations Hv).
    unfold validationBody, stackProps.
    destruct (Js.strict_neq (NODE_ENV env) "production"); reflexivity.
  - destruct Hans as [[x Hx] | Hrange]; [congruence |].
    rewrite (respond_plain Hv Hrange). unfold errorBody, stackProps.
    destruct (Js.strict_neq (NODE_ENV env) "production"); reflexivity.
Qed.


(** What the framework answers never has an [error] object. *)
Lemma errorObject_refused :
  validation e = None ->
  ~ (100 <= resolveStatus e <= 599) ->
  errorObject env e = Js.Str "Internal Server Error".
Proof.
  intros Hv Hrange. unfold errorObject.
  rewrite (respond_refused Hv Hrange). reflexivity.
Qed.

End ErrorHandlerFacts.

(** [a !== b] on a possibly absent string, as a proposition. *)
Lemma strict_neq_true (a : option string) (b : string) :
  Js.strict_neq a b = true <-> a <> Some b.
Proof.
  destruct a as [x|]; simpl.
  - rewrite negb_true_iff. destruct (String.eqb_spec x b) as [->|Hne].
    + split; [discriminate | intros H; exfalso; apply H; reflexivity].
    + split; [intros _ [=]; contradiction | reflexivity].
  - split; [discriminate | reflexivity].
Qed.

(** [a || d] keeps a non-empty [a]. *)
Lemma or_else_nonempty (x d : string) :
  x <> "" -> Js.or_else (Some x) d = x.
Proof.
  intros Hne. unfold Js.or_else, Js.truthy.
  destruct (String.eqb_spec x "") as [->|_]; [contradiction | reflexivity].
Qed.

(** [a || d] falls back to [d] for [undefined] and for the empty string. *)
Lemma or_else_falsy (a : option string) (d : string) :
  a = None \/ a = Some "" -> Js.or_else a d = d.
Proof. intros [-> | ->]; reflexivity. Qed.

Lemma truthy_nonempty (x : string) : x <> "" -> Js.truthy (Some x) = true.
Proof.
  intros Hne. unfold Js.truthy.
  destruct (String.eqb_spec x "") as [->|_]; [contradiction | reflexivity].
Qed.

(** ** Validation failures *)

(** C2 (as amended): a failure carrying a validation list is answered with
    status 422 whatever its own status code, the list is in the body, and
    the [code] field is the failure's code when that is a non-empty string
    and ["VALIDATION_ERROR"] when the code is absent or empty. *)
Theorem validation_failure_is_422
    (env : Env) (e : FastifyError.t) (violations : list Js.val) :
  FastifyError.validation e = Some violations ->
  Reply.statusCode (ErrorHandler.respond env e) = 422
  /\ Js.get "statusCode" (ErrorHandler.errorObject env e) = Js.Num 422
  /\ Js.get "validation" (ErrorHandler.errorObject env e) = Js.Arr violations
  /\ (forall c, FastifyError.code e = Some c -> c <> "" ->
        Js.get "code" (ErrorHandler.errorObject env e) = Js.Str c)
  /\ (FastifyError.code e = None \/ FastifyError.code e = Some "" ->
        Js.get "code" (ErrorHandler.errorObject env e)
        = Js.Str "VALIDATION_ERROR").
Proof.
  intros Hv. unfold ErrorHandler.errorObject.
  rewrite (respond_validation env e violations Hv). cbn.
  repeat split.
  - intros c Hc Hne. rewrite Hc, or_else_nonempty by exact Hne. reflexivity.
  - intros Hc. rewrite or_else_falsy by exact Hc. reflexivity.
Qed.

Lemma validation_failure_is_422_witness :
  Reply.statusCode
    (ErrorHandler.respond Fixture.testing
       (Fixture.validationError (Some "FST_ERR_VALIDATION") (Some 400))) = 422
  /\ Js.get "code"
       (ErrorHandler.errorObject Fixture.testing
          (Fixture.validationError (Some "FST_ERR_VALIDATION") (Some 400)))
     = Js.Str "FST_ERR_VALIDATION"
  /\ Js.get "code"
       (ErrorHandler.errorObject Fixture.testing
          (Fixture.validationError None (Some 400)))
     = Js.Str "VALIDATION_ERROR".
Proof.
  split; [| split].
  - apply (validation_failure_is_422 Fixture.testing
             (Fixture.validationError (Some "FST_ERR_VALIDATION") (Some 400))
             _ eq_refl).
  - apply (validation_failure_is_422 Fixture.testing
             (Fixture.validationError (Some "FST_ERR_VALIDATION") (Some 400))
             _ eq_refl); [reflexivity | discriminate].
  - apply (validation_failure_is_422 Fixture.testing
             (Fixture.validationError None (Some 400)) _ eq_refl).
    left. reflexivity.
Defined.

(** C2 (as stated) fails when the failure's code is the empty string: the
    code is supplied, yet the response carries ["VALIDATION_ERROR"]. *)
Lemma validation_empty_code_counterexample :
  FastifyError.validation (Fixture.validationError (Some "") (Some 400))
  = Some [Js.Obj [("keyword", Js.Str "required")]]
  /\ FastifyError.code (Fixture.validationError (Some "") (Some 400)) = Some ""
  /\ Js.get "code"
       (ErrorHandler.errorObject Fixture.development
          (Fixture.validationError (Some "") (Some 400)))
     = Js.Str "VALIDATION_ERROR"
  /\ Js.get "code"
       (ErrorHandler.errorObject Fixture.development
          (Fixture.validationError (Some "") (Some 400)))
     <> Js.Str "".
Proof. vm_compute. repeat split. discriminate. Qed.




(** ** Status resolution *)

(** C3: without a validation list, a status code within 100..599 carried
    by the failure is the status of the response and the [statusCode] field
    of its body; in every other case, a failure without a status code
    included, both are 500.  For a code outside 100..599 that is the
    framework's doing: [reply.status] throws and the framework answers. *)
Theorem status_resolution (env : Env) (e : FastifyError.t) :
  FastifyError.validation e = None ->
  (forall n, FastifyError.statusCode e = Some n -> 100 <= n <= 599 ->
     Reply.statusCode (ErrorHandler.respond env e) = n
     /\ Js.get "statusCode" (ErrorHandler.errorObject env e) = Js.Num n)
  /\ (FastifyError.statusCode e = None ->
      Reply.statusCode (ErrorHandler.respond env e) = 500
      /\ Js.get "statusCode" (ErrorHandler.errorObject env e) = Js.Num 500)
  /\ (forall n, FastifyError.statusCode e = Some n -> ~ (100 <= n <= 599) ->
      Reply.statusCode (ErrorHandler.respond env e) = 500
      /\ Js.get "statusCode" (Reply.payload (ErrorHandler.respond env e))
         = Js.Num 500).
Proof.
  intros Hv. unfold ErrorHandler.errorObject. repeat split.
  - rewrite (respond_plain env e Hv);
      unfold ErrorHandler.resolveStatus; rewrite H; [reflexivity | assumption].
  - rewrite (respond_plain env e Hv);
      unfold ErrorHandler.errorBody, ErrorHandler.resolveStatus; rewrite H;
      [reflexivity | assumption].
  - rewrite (respond_plain env e Hv);
      unfold ErrorHandler.resolveStatus; rewrite H; [reflexivity | cbn; lia].
  - rewrite (respond_plain env e Hv);
      unfold ErrorHandler.errorBody, ErrorHandler.resolveStatus; rewrite H;
      [reflexivity | cbn; lia].
  - rewrite (respond_refused env e Hv); [reflexivity |].
    unfold ErrorHandler.resolveStatus. rewrite H. assumption.
  - rewrite (respond_refused env e Hv); [reflexivity |].
    unfold ErrorHandler.resolveStatus. rewrite H. assumption.
Qed.

Lemma status_resolution_witness :
  (Reply.statusCode
     (ErrorHandler.respond Fixture.testing
        (Fixture.plainError "Custom error" (Some 403))) = 403
   /\ Js.get "statusCode"
        (ErrorHandler.errorObject Fixture.testing
           (Fixture.plainError "Custom error" (Some 403))) = Js.Num 403)
  /\ (Reply.statusCode
        (ErrorHandler.respond Fixture.testing
           (Fixture.plainError "No status code" None)) = 500
      /\ Js.get "statusCode"
           (ErrorHandler.errorObject Fixture.testing
              (Fixture.plainError "No status code" None)) = Js.Num 500)
  /\ (Reply.statusCode
        (ErrorHandler.respond Fixture.testing
           (Fixture.plainError "Out of range" (Some 700))) = 500
      /\ Js.get "statusCode"
           (Reply.payload
              (ErrorHandler.respond Fixture.testing
                 (Fixture.plainError "Out of range" (Some 700))))
         = Js.Num 500).
Proof.
  pose proof (status_resolution Fixture.testing
                (Fixture.plainError "Custom error" (Some 403)) eq_refl)
    as (Hin & _ & _).
  pose proof (status_resolution Fixture.testing
                (Fixture.plainError "No status code" None) eq_refl)
    as (_ & Hnone & _).
  pose proof (status_resolution Fixture.testing
                (Fixture.plainError "Out of range" (Some 700)) eq_refl)
    as (_ & _ & Hout).
  split; [| split].
  - apply (Hin 403 eq_refl). lia.
  - exact (Hnone eq_refl).
  - apply (Hout 700 eq_refl). lia.
Defined.

(** C4: the handler at a failure with status code 302 and no validation
    list: the response has status 302 and the [statusCode] field of its body
    is 302, below the 400 that the field is said never to go under. *)
Lemma status_below_400_counterexample :
  Js.get "statusCode"
    (ErrorHandler.errorObject Fixture.production
       (Fixture.plainError "Moved" (Some 302))) = Js.Num 302
  /\ Reply.statusCode
       (ErrorHandler.respond Fixture.production
          (Fixture.plainError "Moved" (Some 302))) = 302
  /\ ~ (400 <= 302 <= 599).
Proof. vm_compute. repeat split. intros [H _]. apply H. reflexivity. Qed.

(** ** Stack traces *)




(** ** Log severity *)

(** C9: the severity of the log entry follows the failure's own status
    code, 500 when it has none, and not the status of the response: from
    500 up the entry is an error, from 400 to 499 a warning, and a failure
    with a validation list and a status of 500 or more is logged as an
    error although it is answered with 422. *)
Theorem log_severity_from_original_status
    (env : Env) (e : FastifyError.t) :
  (500 <= default 500 (FastifyError.statusCode e) ->
     ErrorHandler.logged env e
     = [ {| Log.severity := Log.error;
            Log.msg := "Server error: " +:+ FastifyError.message e |} ])
  /\ (400 <= default 500 (FastifyError.statusCode e) <= 499 ->
        ErrorHandler.logged env e
        = [ {| Log.severity := Log.warn;
               Log.msg := "Client error: " +:+ FastifyError.message e |} ])
  /\ (forall violations,
        FastifyError.validation e = Some violations ->
        500 <= default 500 (FastifyError.statusCode e) ->
        map Log.severity (ErrorHandler.logged env e) = [Log.error]
        /\ Reply.statusCode (ErrorHandler.respond env e) = 422).
Proof.
  rewrite logged_eq. unfold ErrorHandler.logFor, ErrorHandler.resolveStatus.
  set (original := default 500 (FastifyError.statusCode e)).
  repeat split.
  - intros H. destruct (Z.leb_spec 500 original); [reflexivity | lia].
  - intros H. destruct (Z.leb_spec 500 original); [lia |].
    destruct (Z.leb_spec 400 original); [reflexivity | lia].
  - destruct (Z.leb_spec 500 original); [reflexivity | lia].
  - rewrite (respond_validation env e violations); [reflexivity | assumption].
Qed.

Lemma log_severity_from_original_status_witness :
  map Log.severity
    (ErrorHandler.logged Fixture.testing
       (Fixture.validationError None (Some 503))) = [Log.error]
  /\ Reply.statusCode
       (ErrorHandler.respond Fixture.testing
          (Fixture.validationError None (Some 503))) = 422.
Proof.
  apply (proj2 (proj2 (log_severity_from_original_status Fixture.testing
                         (Fixture.validationError None (Some 503))))
           _ eq_refl).
  vm_compute. discriminate.
Defined.

(** ** Properties of the JWT plugin *)

Section GateFacts.

Import JwtPlugin.

Context {World : Type}.
Variable fastifyJwt : Verifier.
Variable env : Env.
Variable handler : Request -> World -> World * Js.val.

(** A request whose token does not verify ends at the gate. *)
Lemma protectedRoute_rejected (request : Request) (w : World)
    (why : Rejection) :
  fastifyJwt (registration env) request = inl why ->
  protectedRoute fastifyJwt env handler request w
  = {| reply := {| Reply.sent := true; Reply.statusCode := 401;
                   Reply.payload := unauthorizedBody |};
       world := w;
       handlerCalls := 0 |}.
Proof.
  intros Hrej. unfold protectedRoute, plugin, authenticate. cbn.
  rewrite Hrej. reflexivity.
Qed.

(** A request whose token verifies reaches the handler, once, with the
    claim set attached, and the gate writes nothing to the reply. *)
Lemma protectedRoute_verified (request verified : Request) (w : World) :
  fastifyJwt (registration env) request = inr verified ->
  protectedRoute fastifyJwt env handler request w
  = {| reply := Reply.send (snd (handler verified w)) Reply.fresh;
       world := fst (handler verified w);
       handlerCalls := 1 |}.
Proof.
  intros Hok. unfold protectedRoute, plugin, authenticate. cbn.
  rewrite Hok. cbn. destruct (handler verified w). reflexivity.
Qed.

End GateFacts.

(** C1: when verification of the token fails, for whatever reason, a
    request to a protected route is answered by the gate with status 401
    and the body [{ error: { message: "Unauthorized", code: "UNAUTHORIZED",
    statusCode: 401 } }]; the handler does not run and leaves no trace. *)
Theorem authenticate_failure_is_401 {World : Type}
    (fastifyJwt : JwtPlugin.Verifier) (env : Env)
    (handler : JwtPlugin.Request -> World -> World * Js.val)
    (request : JwtPlugin.Request) (w : World) (why : JwtPlugin.Rejection) :
  fastifyJwt (JwtPlugin.registration env) request = inl why ->
  let outcome := JwtPlugin.protectedRoute fastifyJwt env handler request w in
  Reply.sent (JwtPlugin.reply outcome) = true
  /\ Reply.statusCode (JwtPlugin.reply outcome) = 401
  /\ Reply.payload (JwtPlugin.reply outcome)
     = Js.Obj [ ("error", Js.Obj
         [ ("message", Js.Str "Unauthorized");
           ("code", Js.Str "UNAUTHORIZED");
           ("statusCode", Js.Num 401) ]) ]
  /\ JwtPlugin.handlerCalls outcome = 0%nat
  /\ JwtPlugin.world outcome = w.
Proof.
  intros Hrej outcome. subst outcome.
  rewrite (protectedRoute_rejected fastifyJwt env handler request w why Hrej).
  repeat split.
Qed.

Lemma authenticate_failure_is_401_witness :
  Reply.statusCode
    (JwtPlugin.reply
       (JwtPlugin.protectedRoute Fixture.stubJwt Fixture.testing
          Fixture.countingHandler
          (Fixture.withAuthorization "InvalidFormat") 0%nat)) = 401
  /\ JwtPlugin.handlerCalls
       (JwtPlugin.protectedRoute Fixture.stubJwt Fixture.testing
          Fixture.countingHandler
          (Fixture.withAuthorization "InvalidFormat") 0%nat) = 0%nat.
Proof.
  pose proof (authenticate_failure_is_401 Fixture.stubJwt Fixture.testing
                Fixture.countingHandler
                (Fixture.withAuthorization "InvalidFormat") 0%nat
                JwtPlugin.HeaderMalformed eq_refl) as H.
  cbv zeta in H. destruct H as (_ & Hstatus & _ & Hcalls & _).
  split; assumption.
Defined.

(** C10: the body the gate sends on an authentication failure has exactly
    the fields [message], [code] and [statusCode], and neither [stack] nor
    [validation], under every environment; outside production the error
    normaliser, by contrast, does put a stack in the responses it gives. *)
Theorem unauthorized_body_has_three_fields {World : Type}
    (fastifyJwt : JwtPlugin.Verifier) (env : Env)
    (handler : JwtPlugin.Request -> World -> World * Js.val)
    (request : JwtPlugin.Request) (w : World) (why : JwtPlugin.Rejection) :
  fastifyJwt (JwtPlugin.registration env) request = inl why ->
  let body :=
    JwtPlugin.errorObject
      (JwtPlugin.reply
         (JwtPlugin.protectedRoute fastifyJwt env handler request w)) in
  Js.keys body = ["message"; "code"; "statusCode"]
  /\ Js.has "stack" body = false
  /\ Js.has "validation" body = false
  /\ (NODE_ENV env <> Some "production" ->
      forall e, ErrorHandler.answers e ->
        Js.has "stack" (ErrorHandler.errorObject env e) = true).
Proof.
  intros Hrej body. subst body.
  rewrite (protectedRoute_rejected fastifyJwt env handler request w why Hrej).
  repeat split.
  intros Hmode e Hans. rewrite has_stack_eq by exact Hans.
  apply strict_neq_true. exact Hmode.
Qed.

Lemma unauthorized_body_has_three_fields_witness :
  Js.keys
    (JwtPlugin.errorObject
       (JwtPlugin.reply
          (JwtPlugin.protectedRoute Fixture.stubJwt Fixture.development
             Fixture.countingHandler Fixture.anonymous 0%nat)))
  = ["message"; "code"; "statusCode"]
  /\ Js.has "stack"
       (JwtPlugin.errorObject
          (JwtPlugin.reply
             (JwtPlugin.protectedRoute Fixture.stubJwt Fixture.development
                Fixture.countingHandler Fixture.anonymous 0%nat))) = false
  /\ Js.has "stack"
       (ErrorHandler.errorObject Fixture.development
          (Fixture.plainError "Development error" None)) = true.
Proof.
  pose proof (unauthorized_body_has_three_fields Fixture.stubJwt
                Fixture.development Fixture.countingHandler
                Fixture.anonymous 0%nat JwtPlugin.HeaderMissing eq_refl) as H.
  cbv zeta in H. destruct H as (Hkeys & Hstack & _ & Hnorm).
  split; [exact Hkeys | split; [exact Hstack |]].
  apply Hnorm.
  - vm_compute. discriminate.
  - right. vm_compute. split; discriminate.
Defined.

(** ** Secret selection at start-up *)

(** C7 (as amended): when [JWT_SECRET] is unset or empty the development
    secret is used, and the warning is logged unless [NODE_ENV] is
    ["test"]; when [JWT_SECRET] is a non-empty string it is the secret and
    nothing is logged. *)
Theorem secret_selection (fastifyJwt : JwtPlugin.Verifier) (env : Env) :
  (JWT_SECRET env = None \/ JWT_SECRET env = Some "" ->
     JwtPlugin.secret (JwtPlugin.options (JwtPlugin.plugin fastifyJwt env))
     = "development-secret-change-in-production"
     /\ (NODE_ENV env <> Some "test" ->
         JwtPlugin.log (JwtPlugin.plugin fastifyJwt env)
         = [JwtPlugin.secretWarning])
     /\ (NODE_ENV env = Some "test" ->
         JwtPlugin.log (JwtPlugin.plugin fastifyJwt env) = []))
  /\ (forall s, JWT_SECRET env = Some s -> s <> "" ->
        JwtPlugin.secret (JwtPlugin.options (JwtPlugin.plugin fastifyJwt env))
        = s
        /\ JwtPlugin.log (JwtPlugin.plugin fastifyJwt env) = []).
Proof.
  unfold JwtPlugin.plugin, JwtPlugin.registration, JwtPlugin.startupLog,
    JwtPlugin.shouldWarn, JwtPlugin.chooseSecret. cbn. split.
  - intros Hunset. rewrite or_else_falsy by exact Hunset.
    assert (Js.truthy (JWT_SECRET env) = false) as ->
      by (destruct Hunset as [-> | ->]; reflexivity).
    cbn. repeat split.
    + intros Hmode. apply strict_neq_true in Hmode. rewrite Hmode. reflexivity.
    + intros ->. reflexivity.
  - intros s Hs Hne. rewrite Hs, or_else_nonempty, truthy_nonempty by exact Hne.
    split; reflexivity.
Qed.

Lemma secret_selection_witness :
  (JwtPlugin.secret
     (JwtPlugin.options (JwtPlugin.plugin Fixture.stubJwt Fixture.testing))
   = "test-secret-key"
   /\ JwtPlugin.log (JwtPlugin.plugin Fixture.stubJwt Fixture.testing) = [])
  /\ JwtPlugin.log (JwtPlugin.plugin Fixture.stubJwt Fixture.development)
     = [JwtPlugin.secretWarning].
Proof.
  split.
  - apply (proj2 (secret_selection Fixture.stubJwt Fixture.testing)
             "test-secret-key" eq_refl).
    discriminate.
  - apply (proj1 (secret_selection Fixture.stubJwt Fixture.development)
             (or_introl eq_refl)).
    vm_compute. discriminate.
Defined.

(** C7 (as stated) fails when [JWT_SECRET] is set to the empty string: the
    variable is set, yet the development secret is used and the warning is
    logged. *)
Lemma empty_secret_counterexample :
  JWT_SECRET {[ "JWT_SECRET" := "" ]} = Some ""
  /\ JwtPlugin.secret
       (JwtPlugin.options
          (JwtPlugin.plugin Fixture.stubJwt {[ "JWT_SECRET" := "" ]}))
     = "development-secret-change-in-production"
  /\ JwtPlugin.secret
       (JwtPlugin.options
          (JwtPlugin.plugin Fixture.stubJwt {[ "JWT_SECRET" := "" ]}))
     <> ""
  /\ JwtPlugin.log (JwtPlugin.plugin Fixture.stubJwt {[ "JWT_SECRET" := "" ]})
     = [JwtPlugin.secretWarning].
Proof. vm_compute. repeat split. discriminate. Qed.

(** ** Further properties of the error normaliser *)

(** Every log call of the handler carries the failure itself. *)
Lemma log_call_object (env : Env) (e : FastifyError.t) (reply : Reply.t)
    (call : ErrorHandler.LogCall) :
  In call (fst (ErrorHandler.errorHandler env e reply)) ->
  ErrorHandler.object call = e.
Proof.
  assert (fst (ErrorHandler.errorHandler env e reply) = ErrorHandler.logFor e)
    as -> by (unfold ErrorHandler.errorHandler;
              destruct (FastifyError.validation e); reflexivity).
  unfold ErrorHandler.logFor.
  destruct (500 <=? ErrorHandler.resolveStatus e);
    [| destruct (400 <=? ErrorHandler.resolveStatus e)]; cbn;
    intros Hin; try contradiction;
    destruct Hin as [<- | Hin]; try contradiction; reflexivity.
Qed.

(** [a || d] is never empty when the default is not. *)
Lemma or_else_not_empty (a : option string) (d : string) :
  d <> "" -> Js.or_else a d <> "".
Proof.
  intros Hd. destruct a as [x|]; [| exact Hd].
  unfold Js.or_else, Js.truthy.
  destruct (String.eqb_spec x "") as [_|Hne]; [exact Hd | exact Hne].
Qed.

(** [NODE_ENV !== "production"], decided. *)
Lemma strict_neq_decide (env : Env) :
  Js.strict_neq (NODE_ENV env) "production"
  = if decide (NODE_ENV env = Some "production") then false else true.
Proof.
  destruct (decide (NODE_ENV env = Some "production")) as [Heq|Hne].
  - rewrite Heq. reflexivity.
  - apply strict_neq_true. exact Hne.
Qed.

(** X1: for a failure without a validation list, whose status code is
    absent or at least 100, the log entry and the response agree: an error
    entry exactly when the response status is 500 or more, a warning exactly
    when it is between 400 and 499, and no entry at all exactly when it is
    below 400. *)
Theorem log_matches_response_status (env : Env) (e : FastifyError.t) :
  FastifyError.validation e = None ->
  100 <= default 500 (FastifyError.statusCode e) ->
  (map Log.severity (ErrorHandler.logged env e) = [Log.error]
   <-> 500 <= Reply.statusCode (ErrorHandler.respond env e))
  /\ (map Log.severity (ErrorHandler.logged env e) = [Log.warn]
      <-> 400 <= Reply.statusCode (ErrorHandler.respond env e) <= 499)
  /\ (ErrorHandler.logged env e = []
      <-> Reply.statusCode (ErrorHandler.respond env e) < 400).
Proof.
  intros Hv Hlow. rewrite logged_eq. unfold ErrorHandler.logFor.
  fold (ErrorHandler.resolveStatus e) in Hlow.
  destruct (Z_le_gt_dec (ErrorHandler.resolveStatus e) 599) as [Hhigh|Hhigh].
  - rewrite (respond_plain env e Hv (conj Hlow Hhigh)). cbn.
    set (s := ErrorHandler.resolveStatus e) in *.
    destruct (Z.leb_spec 500 s); [| destruct (Z.leb_spec 400 s)]; cbn;
      repeat split; intros; try lia; try discriminate; try reflexivity.
  - rewrite (respond_refused env e Hv) by lia. cbn.
    set (s := ErrorHandler.resolveStatus e) in *.
    destruct (Z.leb_spec 500 s); [| lia]; cbn;
      repeat split; intros; try lia; try discriminate; try reflexivity.
Qed.

Lemma log_matches_response_status_witness :
  ErrorHandler.logged Fixture.testing (Fixture.plainError "Moved" (Some 302))
  = [].
Proof.
  apply (log_matches_response_status Fixture.testing
           (Fixture.plainError "Moved" (Some 302)) eq_refl).
  - vm_compute. discriminate.
  - vm_compute. reflexivity.
Defined.

(** X2: a failure with a validation list whose own status code is below
    400 is answered with 422 and leaves no log entry. *)
Theorem validation_below_400_unlogged
    (env : Env) (e : FastifyError.t) (violations : list Js.val) (n : Z) :
  FastifyError.validation e = Some violations ->
  FastifyError.statusCode e = Some n ->
  n < 400 ->
  ErrorHandler.logged env e = []
  /\ Reply.statusCode (ErrorHandler.respond env e) = 422.
Proof.
  intros Hv Hn Hlt. rewrite logged_eq, (respond_validation env e violations Hv).
  unfold ErrorHandler.logFor, ErrorHandler.resolveStatus. rewrite Hn. cbn.
  destruct (Z.leb_spec 500 n); [lia |].
  destruct (Z.leb_spec 400 n); [lia |]. split; reflexivity.
Qed.

Lemma validation_below_400_unlogged_witness :
  ErrorHandler.logged Fixture.development
    (Fixture.validationError None (Some 200)) = []
  /\ Reply.statusCode
       (ErrorHandler.respond Fixture.development
          (Fixture.validationError None (Some 200))) = 422.
Proof.
  apply (validation_below_400_unlogged Fixture.development
           (Fixture.validationError None (Some 200)) _ 200 eq_refl eq_refl).
  lia.
Defined.

(** X3: the severity and the message text of what the handler logs depend
    on the failure's message and status code only: not on the environment,
    and not on the failure's code, validation list or stack.  These reach
    the log only inside the error object, which is the failure itself. *)
Theorem log_depends_on_message_and_status
    (env env' : Env) (e e' : FastifyError.t) (reply : Reply.t) :
  FastifyError.message e = FastifyError.message e' ->
  FastifyError.statusCode e = FastifyError.statusCode e' ->
  ErrorHandler.logged env e = ErrorHandler.logged env' e'
  /\ (forall call, In call (fst (ErrorHandler.errorHandler env e reply)) ->
        ErrorHandler.object call = e).
Proof.
  intros Hm Hs. split.
  - rewrite !logged_eq.
    unfold ErrorHandler.logFor, ErrorHandler.resolveStatus.
    rewrite Hm, Hs.
    destruct (500 <=? default 500 (FastifyError.statusCode e'));
      [reflexivity |].
    destruct (400 <=? default 500 (FastifyError.statusCode e')); reflexivity.
  - intros call Hin. exact (log_call_object env e reply call Hin).
Qed.

Lemma log_depends_on_message_and_status_witness :
  ErrorHandler.logged Fixture.production
    (Fixture.validationError (Some "FST_ERR_VALIDATION") (Some 400))
  = ErrorHandler.logged Fixture.development
      (Fixture.plainError "querystring must have required property 'name'"
         (Some 400)).
Proof.
  apply (log_depends_on_message_and_status Fixture.production
           Fixture.development
           (Fixture.validationError (Some "FST_ERR_VALIDATION") (Some 400))
           (Fixture.plainError
              "querystring must have required property 'name'" (Some 400))
           Reply.fresh eq_refl eq_refl).
Defined.

(** X4: the payload the handler sends has the single property [error],
    whose properties are, in this order, [message], [code], [statusCode],
    then [validation] when the failure carries a validation list, then
    [stack] when [NODE_ENV] is not ["production"]; nothing else is ever
    there. *)
Theorem error_response_shape (env : Env) (e : FastifyError.t) :
  ErrorHandler.answers e ->
  Js.keys (Reply.payload (ErrorHandler.respond env e)) = ["error"]
  /\ Js.keys (ErrorHandler.errorObject env e)
     = (["message"; "code"; "statusCode"]
        ++ match FastifyError.validation e with
           | Some _ => ["validation"]
           | None => []
           end
        ++ (if decide (NODE_ENV env = Some "production")
            then [] else ["stack"]))%list.
Proof.
  intros Hans. unfold ErrorHandler.errorObject.
  destruct (FastifyError.validation e) as [violations|] eqn:Hv.
  - rewrite (respond_validation env e violations Hv).
    unfold ErrorHandler.validationBody, ErrorHandler.stackProps.
    rewrite strict_neq_decide.
    destruct (decide (NODE_ENV env = Some "production")); split; reflexivity.
  - destruct Hans as [[x Hx] | Hrange]; [congruence |].
    rewrite (respond_plain env e Hv Hrange).
    unfold ErrorHandler.errorBody, ErrorHandler.stackProps.
    rewrite strict_neq_decide.
    destruct (decide (NODE_ENV env = Some "production")); split; reflexivity.
Qed.

Lemma error_response_shape_witness :
  Js.keys
    (ErrorHandler.errorObject Fixture.development
       (Fixture.validationError None (Some 400)))
  = ["message"; "code"; "statusCode"; "validation"; "stack"].
Proof.
  apply (error_response_shape Fixture.development
           (Fixture.validationError None (Some 400))).
  left. eexists. reflexivity.
Defined.

(** X5: a validation response always carries a non-empty [code]; any other
    response the handler gives carries the failure's code as it is,
    [undefined] when the failure has none. *)
Theorem validation_code_never_empty (env : Env) (e : FastifyError.t) :
  (forall violations, FastifyError.validation e = Some violations ->
     exists c, Js.get "code" (ErrorHandler.errorObject env e) = Js.Str c
               /\ c <> "")
  /\ (FastifyError.validation e = None ->
      100 <= default 500 (FastifyError.statusCode e) <= 599 ->
      Js.get "code" (ErrorHandler.errorObject env e)
      = Js.of_string (FastifyError.code e)
      /\ (Js.defined "code" (ErrorHandler.errorObject env e) = true
          <-> is_Some (FastifyError.code e))).
Proof.
  unfold ErrorHandler.errorObject. split.
  - intros violations Hv. rewrite (respond_validation env e violations Hv).
    eexists. split; [reflexivity |]. apply or_else_not_empty. discriminate.
  - intros Hv Hrange. rewrite (respond_plain env e Hv Hrange).
    unfold Js.defined. cbn.
    split; [reflexivity |].
    destruct (FastifyError.code e) as [c|]; cbn; split; intros H;
      try reflexivity; try discriminate; eauto.
    destruct H as [x Hx]. discriminate Hx.
Qed.

Lemma validation_code_never_empty_witness :
  (exists c,
     Js.get "code"
       (ErrorHandler.errorObject Fixture.testing
          (Fixture.validationError (Some "") (Some 400))) = Js.Str c
     /\ c <> "")
  /\ Js.get "code"
       (ErrorHandler.errorObject Fixture.testing
          (Fixture.plainError "No code" None)) = Js.Undefined.
Proof.
  split.
  - apply (proj1 (validation_code_never_empty Fixture.testing
                    (Fixture.validationError (Some "") (Some 400)))
             _ eq_refl).
  - apply (proj2 (validation_code_never_empty Fixture.testing
                    (Fixture.plainError "No code" None)) eq_refl).
    vm_compute. split; discriminate.
Defined.

(** X6: in production the failure's stack does not reach the reply: two
    failures that differ in their stacks only are answered identically.
    The stack still reaches the logger, inside the error object that every
    log call carries. *)
Theorem production_hides_stack
    (env : Env) (e e' : FastifyError.t) (reply : Reply.t) :
  NODE_ENV env = Some "production" ->
  FastifyError.message e = FastifyError.message e' ->
  FastifyError.code e = FastifyError.code e' ->
  FastifyError.statusCode e = FastifyError.statusCode e' ->
  FastifyError.validation e = FastifyError.validation e' ->
  snd (ErrorHandler.errorHandler env e reply)
  = snd (ErrorHandler.errorHandler env e' reply)
  /\ ErrorHandler.respond env e = ErrorHandler.respond env e'
  /\ (forall call, In call (fst (ErrorHandler.errorHandler env e reply)) ->
        FastifyError.stack (ErrorHandler.object call) = FastifyError.stack e).
Proof.
  intros Hprod Hm Hc Hs Hv.
  assert (forall r, snd (ErrorHandler.errorHandler env e r)
                    = snd (ErrorHandler.errorHandler env e' r)) as Hsame.
  { intros r.
    unfold ErrorHandler.errorHandler, ErrorHandler.validationBody,
      ErrorHandler.errorBody, ErrorHandler.stackProps,
      ErrorHandler.resolveStatus.
    rewrite Hprod, Hm, Hc, Hs, Hv. destruct (FastifyError.validation e');
      reflexivity. }
  split; [apply Hsame | split].
  - unfold ErrorHandler.respond. rewrite Hsame. reflexivity.
  - intros call Hin. rewrite (log_call_object env e reply call Hin).
    reflexivity.
Qed.

Lemma production_hides_stack_witness :
  ErrorHandler.respond Fixture.production (Fixture.plainError "Boom" None)
  = ErrorHandler.respond Fixture.production
      {| FastifyError.message := "Boom";
         FastifyError.code := None;
         FastifyError.statusCode := None;
         FastifyError.validation := None;
         FastifyError.stack := "Error: Boom at db.ts:42 (secret path)" |}.
Proof.
  apply (production_hides_stack Fixture.production
           (Fixture.plainError "Boom" None)
           {| FastifyError.message := "Boom";
              FastifyError.code := None;
              FastifyError.statusCode := None;
              FastifyError.validation := None;
              FastifyError.stack := "Error: Boom at db.ts:42 (secret path)" |}
           Reply.fresh eq_refl eq_refl eq_refl eq_refl eq_refl).
Defined.

(** X7: of the environment the handler reads only whether [NODE_ENV] is
    ["production"]: two environments that agree on that give the same log
    and the same reply, so development, test and an unset mode all behave
    alike. *)
Theorem only_production_flag_matters
    (env env' : Env) (e : FastifyError.t) (reply : Reply.t) :
  (NODE_ENV env = Some "production" <-> NODE_ENV env' = Some "production") ->
  ErrorHandler.errorHandler env e reply = ErrorHandler.errorHandler env' e reply.
Proof.
  intros Hagree.
  unfold ErrorHandler.errorHandler, ErrorHandler.validationBody,
    ErrorHandler.errorBody, ErrorHandler.stackProps.
  rewrite !strict_neq_decide.
  destruct (decide (NODE_ENV env = Some "production")) as [H|H],
    (decide (NODE_ENV env' = Some "production")) as [H'|H'];
    try reflexivity; exfalso; tauto.
Qed.

Lemma only_production_flag_matters_witness :
  ErrorHandler.errorHandler Fixture.development
    (Fixture.plainError "Boom" None) Reply.fresh
  = ErrorHandler.errorHandler Fixture.testing
      (Fixture.plainError "Boom" None) Reply.fresh.
Proof.
  apply (only_production_flag_matters Fixture.development Fixture.testing).
  split; intros H; vm_compute in H; discriminate H.
Defined.

(** ** Further properties of the JWT plugin *)

(** X8: the secret handed to the JWT library is never the empty string,
    whatever the environment holds. *)
Theorem secret_never_empty (env : Env) :
  JwtPlugin.secret (JwtPlugin.registration env) <> "".
Proof.
  unfold JwtPlugin.registration, JwtPlugin.chooseSecret. cbn.
  apply or_else_not_empty. discriminate.
Qed.

(** X9: the start-up warning is logged only while the development secret
    is in use and never in test mode; and outside test mode the development
    secret is never used silently, unless [JWT_SECRET] itself spells it. *)
Theorem warning_tracks_development_secret
    (fastifyJwt : JwtPlugin.Verifier) (env : Env) :
  (JwtPlugin.log (JwtPlugin.plugin fastifyJwt env) <> [] ->
     JwtPlugin.log (JwtPlugin.plugin fastifyJwt env) = [JwtPlugin.secretWarning]
     /\ JwtPlugin.secret (JwtPlugin.options (JwtPlugin.plugin fastifyJwt env))
        = JwtPlugin.developmentSecret
     /\ NODE_ENV env <> Some "test")
  /\ (JwtPlugin.secret (JwtPlugin.options (JwtPlugin.plugin fastifyJwt env))
      = JwtPlugin.developmentSecret ->
      JWT_SECRET env <> Some JwtPlugin.developmentSecret ->
      NODE_ENV env <> Some "test" ->
      JwtPlugin.log (JwtPlugin.plugin fastifyJwt env)
      = [JwtPlugin.secretWarning]).
Proof.
  unfold JwtPlugin.plugin, JwtPlugin.registration, JwtPlugin.startupLog,
    JwtPlugin.shouldWarn, JwtPlugin.chooseSecret. cbn.
  destruct (JWT_SECRET env) as [s|] eqn:Hs.
  - destruct (String.eqb_spec s "") as [->|Hne].
    + cbn. split.
      * destruct (Js.strict_neq (NODE_ENV env) "test") eqn:Hmode;
          [| intros H; contradiction].
        intros _. apply strict_neq_true in Hmode. repeat split; assumption.
      * intros _ _ Hmode. apply strict_neq_true in Hmode. rewrite Hmode.
        reflexivity.
    + rewrite (or_else_nonempty s _ Hne), (truthy_nonempty s Hne). cbn. split.
      * intros H. contradiction.
      * intros -> H. exfalso. apply H. reflexivity.
  - cbn. split.
    + destruct (Js.strict_neq (NODE_ENV env) "test") eqn:Hmode;
        [| intros H; contradiction].
      intros _. apply strict_neq_true in Hmode. repeat split; assumption.
    + intros _ _ Hmode. apply strict_neq_true in Hmode. rewrite Hmode.
      reflexivity.
Qed.

Lemma warning_tracks_development_secret_witness :
  JwtPlugin.log (JwtPlugin.plugin Fixture.stubJwt Fixture.production)
  = [JwtPlugin.secretWarning].
Proof.
  apply (proj2 (warning_tracks_development_secret Fixture.stubJwt
                  Fixture.production)).
  - reflexivity.
  - vm_compute. discriminate.
  - vm_compute. discriminate.
Defined.

(** X10: the gate's answer to a request it rejects does not depend on the
    request, on why verification failed, on the environment or on the
    secret: any two rejections leave the same reply. *)
Theorem rejections_indistinguishable
    (fastifyJwt fastifyJwt' : JwtPlugin.Verifier) (env env' : Env)
    (request request' : JwtPlugin.Request)
    (why why' : JwtPlugin.Rejection) (reply : Reply.t) :
  fastifyJwt (JwtPlugin.registration env) request = inl why ->
  fastifyJwt' (JwtPlugin.registration env') request' = inl why' ->
  snd (JwtPlugin.decorator (JwtPlugin.plugin fastifyJwt env) request reply)
  = snd (JwtPlugin.decorator (JwtPlugin.plugin fastifyJwt' env') request' reply).
Proof.
  intros H H'. unfold JwtPlugin.plugin, JwtPlugin.authenticate. cbn.
  rewrite H, H'. reflexivity.
Qed.

Lemma rejections_indistinguishable_witness :
  snd (JwtPlugin.decorator (JwtPlugin.plugin Fixture.stubJwt Fixture.testing)
         Fixture.anonymous Reply.fresh)
  = snd (JwtPlugin.decorator
           (JwtPlugin.plugin Fixture.stubJwt Fixture.production)
           (Fixture.withAuthorization "Bearer expired-token") Reply.fresh).
Proof.
  apply (rejections_indistinguishable Fixture.stubJwt Fixture.stubJwt
           Fixture.testing Fixture.production Fixture.anonymous
           (Fixture.withAuthorization "Bearer expired-token")
           JwtPlugin.HeaderMissing JwtPlugin.TokenInvalid Reply.fresh
           eq_refl eq_refl).
Defined.

(** X11: on a reply nobody has sent yet, the gate answers exactly when
    verification fails.  When it succeeds the gate hands on the verified
    request and leaves the reply as it found it; when it fails the request
    is handed on unchanged, with no claim set attached by the gate. *)
Theorem gate_answers_iff_rejected
    (jwtVerify : JwtPlugin.Request -> JwtPlugin.Rejection + JwtPlugin.Request)
    (request : JwtPlugin.Request) (reply : Reply.t) :
  Reply.sent reply = false ->
  (Reply.sent (snd (JwtPlugin.authenticate jwtVerify request reply)) = true
   <-> exists why, jwtVerify request = inl why)
  /\ (forall verified, jwtVerify request = inr verified ->
        JwtPlugin.authenticate jwtVerify request reply = (verified, reply))
  /\ (forall why, jwtVerify request = inl why ->
        fst (JwtPlugin.authenticate jwtVerify request reply) = request).
Proof.
  intros Hfresh. unfold JwtPlugin.authenticate, Reply.send, Reply.code.
  destruct (jwtVerify request) as [why|verified]; cbn.
  - rewrite Hfresh. cbn. repeat split; eauto. intros v [=].
  - rewrite Hfresh. repeat split.
    + intros [=].
    + intros [why [=]].
    + intros v [= ->]. reflexivity.
    + intros why [=].
Qed.

Lemma gate_answers_iff_rejected_witness :
  JwtPlugin.authenticate
    (Fixture.stubJwt (JwtPlugin.registration Fixture.testing))
    (Fixture.withAuthorization "Bearer test-secret-key") Reply.fresh
  = ({| JwtPlugin.headers := {[ "authorization" := "Bearer test-secret-key" ]};
        JwtPlugin.user := Js.Obj [("userId", Js.Num 123)] |},
     Reply.fresh).
Proof.
  apply (gate_answers_iff_rejected
           (Fixture.stubJwt (JwtPlugin.registration Fixture.testing))
           (Fixture.withAuthorization "Bearer test-secret-key") Reply.fresh
           eq_refl).
  reflexivity.
Defined.

(** ** Request tracking *)

(** Reading a header that was just set, under a name that differs at most
    in case. *)
Lemma header_lookup_set_eq (name name' value : string) (h : Header.t) :
  Header.lowercase name = Header.lowercase name' ->
  Header.set name value h !! name' = Some value.
Proof.
  intros Hsame. unfold lookup, header_lookup, Header.get, Header.set. cbn.
  rewrite Hsame. apply lookup_insert_eq.
Qed.

(** Setting a header leaves the headers of other names alone. *)
Lemma header_lookup_set_ne (name name' value : string) (h : Header.t) :
  Header.lowercase name <> Header.lowercase name' ->
  Header.set name value h !! name' = h !! name'.
Proof.
  intros Hother. unfold lookup, header_lookup, Header.get, Header.set. cbn.
  apply lookup_insert_ne. exact Hother.
Qed.

(** X12: after the hook the request id is the same in all three places it
    is put: [request.id], the [X-Request-Id] response header, read under
    any case of its name, and the [requestId] binding of the request's
    logger, under which the incoming request is logged.  A response header
    of any other name, the request headers and the earlier log entries are
    left as they were. *)
Theorem request_id_consistent (uuid : string) (s : RequestLogging.State) :
  let s' := RequestLogging.onRequest uuid s in
  let rid := RequestLogging.id (RequestLogging.request s') in
  (forall name, Header.lowercase name = "x-request-id" ->
     RequestLogging.responseHeaders s' !! name = Some rid)
  /\ last (RequestLogging.logBindings (RequestLogging.request s'))
     = Some ("requestId", Js.Str rid)
  /\ (exists entry,
        RequestLogging.log s' = (RequestLogging.log s ++ [entry])%list
        /\ RequestLogging.bindings entry
           = RequestLogging.logBindings (RequestLogging.request s'))
  /\ (forall name, Header.lowercase name <> "x-request-id" ->
        RequestLogging.responseHeaders s' !! name
        = RequestLogging.responseHeaders s !! name)
  /\ RequestLogging.headers (RequestLogging.request s')
     = RequestLogging.headers (RequestLogging.request s).
Proof.
  cbn. repeat split.
  - intros name Hname. apply header_lookup_set_eq. rewrite Hname. reflexivity.
  - apply last_snoc.
  - eexists. split; reflexivity.
  - intros name Hname. apply header_lookup_set_ne.
    intros Hsame. apply Hname. rewrite <- Hsame. reflexivity.
Qed.

Lemma request_id_consistent_witness :
  RequestLogging.responseHeaders
    (RequestLogging.onRequest TrackingFixture.sampleUuid
       (TrackingFixture.requestWith ∅)) !! "x-request-id"
  = Some TrackingFixture.sampleUuid
  /\ RequestLogging.responseHeaders
       (RequestLogging.onRequest TrackingFixture.sampleUuid
          (TrackingFixture.requestWith ∅)) !! "content-type"
     = Some "application/json".
Proof.
  pose proof (request_id_consistent TrackingFixture.sampleUuid
                (TrackingFixture.requestWith ∅)) as H.
  cbv zeta in H. destruct H as (Hid & _ & _ & Hother & _).
  split.
  - apply (Hid "x-request-id"). reflexivity.
  - rewrite (Hother "content-type") by (vm_compute; discriminate).
    vm_compute. reflexivity.
Defined.

(** X13: a non-empty [x-request-id] sent by the client becomes the request
    id and is echoed in the response header; when the header is missing or
    empty the generated identifier is used instead; so the request id is
    never empty as long as the generated one is not. *)
Theorem client_request_id_echoed (uuid : string) (s : RequestLogging.State) :
  (forall c,
     RequestLogging.headers (RequestLogging.request s) !! "x-request-id"
     = Some c ->
     c <> "" ->
     RequestLogging.id (RequestLogging.request (RequestLogging.onRequest uuid s))
     = c
     /\ RequestLogging.responseHeaders (RequestLogging.onRequest uuid s)
          !! "X-Request-Id" = Some c)
  /\ (RequestLogging.headers (RequestLogging.request s) !! "x-request-id" = None
      \/ RequestLogging.headers (RequestLogging.request s) !! "x-request-id"
         = Some "" ->
      RequestLogging.id
        (RequestLogging.request (RequestLogging.onRequest uuid s)) = uuid)
  /\ (uuid <> "" ->
      RequestLogging.id
        (RequestLogging.request (RequestLogging.onRequest uuid s)) <> "").
Proof.
  repeat split.
  - cbn. unfold RequestLogging.requestIdFor. rewrite H.
    apply or_else_nonempty. assumption.
  - unfold RequestLogging.onRequest. cbn [RequestLogging.responseHeaders].
    rewrite header_lookup_set_eq by reflexivity.
    unfold RequestLogging.requestIdFor. rewrite H. f_equal.
    apply or_else_nonempty. assumption.
  - intros Hc. cbn. apply or_else_falsy. exact Hc.
  - intros Hu. cbn. apply or_else_not_empty. exact Hu.
Qed.

Lemma client_request_id_echoed_witness :
  (RequestLogging.id
     (RequestLogging.request
        (RequestLogging.onRequest TrackingFixture.sampleUuid
           (TrackingFixture.requestWith
              {[ "x-request-id" := "custom-request-id-123" ]})))
   = "custom-request-id-123"
   /\ RequestLogging.responseHeaders
        (RequestLogging.onRequest TrackingFixture.sampleUuid
           (TrackingFixture.requestWith
              {[ "x-request-id" := "custom-request-id-123" ]}))
        !! "X-Request-Id" = Some "custom-request-id-123")
  /\ RequestLogging.id
       (RequestLogging.request
          (RequestLogging.onRequest TrackingFixture.sampleUuid
             (TrackingFixture.requestWith ∅)))
     = TrackingFixture.sampleUuid.
Proof.
  split.
  - apply (proj1 (client_request_id_echoed TrackingFixture.sampleUuid
                    (TrackingFixture.requestWith
                       {[ "x-request-id" := "custom-request-id-123" ]}))
             "custom-request-id-123").
    + vm_compute. reflexivity.
    + discriminate.
  - apply (proj1 (proj2 (client_request_id_echoed TrackingFixture.sampleUuid
                           (TrackingFixture.requestWith ∅)))).
    left. reflexivity.
Defined.

(** ** Shutdown *)

(** X14: the exit code of a shutdown depends on whether closing the server
    succeeded and on nothing else: 0 when it did and 1 when it did not,
    whichever event started it, an uncaught exception included; and the
    last entry logged is the verdict on the close. *)
Theorem exit_code_from_close_only
    (close : Lifecycle.CloseOutcome) (ev ev' : Lifecycle.ProcessEvent) :
  snd (Lifecycle.onEvent close ev)
  = (if Lifecycle.resolved close then 0 else 1)
  /\ snd (Lifecycle.onEvent close ev) = snd (Lifecycle.onEvent close ev')
  /\ last (fst (Lifecycle.onEvent close ev))
     = Some (if Lifecycle.resolved close
             then {| Lifecycle.severity := Lifecycle.info;
                     Lifecycle.msg := "Server closed successfully" |}
             else {| Lifecycle.severity := Lifecycle.error;
                     Lifecycle.msg := "Error during graceful shutdown" |}).
Proof.
  unfold Lifecycle.onEvent, Lifecycle.closeGracefully.
  destruct (Lifecycle.resolved close), ev, ev'; cbn;
    repeat split;
    rewrite ?app_comm_cons; apply last_snoc.
Qed.
